(** * gcc_tester: the calculator and its marker-controlled unit test

    A shallow embedding of

      - [src/gcc_tester/src/gcc_tester.cpp]  ([GccTester::add],
        [GccTester::is_even]), and
      - [src/gcc_tester/tests/test_gcc_tester.cpp]  (the googletest cases
        [AddWorks] and [IsEvenWorks]; the verdict of the latter can be
        switched from outside),

    followed by the properties the specification states about them.

    The C++ type [int] is modelled as the mathematical integers [Z]
    restricted to the interval [INT_MIN .. INT_MAX]; the operator [%] is
    the truncating remainder [Z.rem]; the file system that
    [std::ifstream] reads is a finite map from paths to files. *)

From Stdlib Require Import ZArith Zquot Bool List.
From stdpp Require Import gmap strings list fin_maps.

Local Open Scope Z_scope.

(* ===================================================================== *)
(** ** The type [int]                                                     *)
(* ===================================================================== *)

Module CInt.

(** [int] is 32 bits wide on the targets gcc builds this project for. *)
Definition INT_BITS : Z := 32.
Definition INT_MIN : Z := - 2 ^ (INT_BITS - 1).
Definition INT_MAX : Z := 2 ^ (INT_BITS - 1) - 1.

(** The values an [int] can hold. *)
Definition in_range (z : Z) : bool := (INT_MIN <=? z) && (z <=? INT_MAX).

(** Two's-complement reduction of a mathematical integer into [int];
    this is what the hardware leaves in the register when a signed
    operation overflows. *)
Definition wrap (z : Z) : Z :=
  (z - INT_MIN) mod 2 ^ INT_BITS + INT_MIN.

(** The result of a signed arithmetic expression whose mathematical value
    is [z]: the value itself when it fits; otherwise the behaviour is
    undefined (C++ [expr.pre]), rendered as [None]. *)
Definition signed (z : Z) : option Z :=
  if in_range z then Some z else None.

(** [a % b] on [int]: the remainder of the division that truncates towards
    zero, so the result carries the sign of [a]. *)
Definition c_rem (a b : Z) : Z := Z.rem a b.

End CInt.

(* ===================================================================== *)
(** ** gcc_tester.cpp                                                     *)
(* ===================================================================== *)

Module GccTester.
Import CInt.

(** [int GccTester::add(int a, int b) const { return a + b; }] *)
Definition add (a b : Z) : option Z := signed (a + b).

(** [bool GccTester::is_even(int v) const { return (v % 2) == 0; }] *)
Definition is_even (v : Z) : bool := c_rem v 2 =? 0.

End GccTester.

(* ===================================================================== *)
(** ** The environment of the test: files and [std::ifstream]             *)
(* ===================================================================== *)

Module Fs.

(** A directory entry: the bytes stored in it, and whether the process
    running the test is allowed to open it for reading. *)
Record file : Type := File {
  data : list Byte.byte;
  readable : bool
}.

(** The state bits of a stream ([std::ios_base::iostate]). *)
Record iostate : Type := IoState {
  badbit : bool;
  eofbit : bool;
  failbit : bool
}.

Definition goodbit : iostate :=
  {| badbit := false; eofbit := false; failbit := false |}.

(** An input file stream: its state and, when a file is attached, the
    bytes still to be read. *)
Record ifstream : Type := IfStream {
  rdstate : iostate;
  rdbuf : option (list Byte.byte)
}.

(** [std::ifstream fh(path)]: the constructor opens [path] for reading
    and, when that does not succeed, sets [failbit]. Nothing is read, so
    [eofbit] stays clear even for an empty file. The file system is
    consulted at the path as written; other spellings of the same file
    (links, [.] components, repeated separators) are not modelled. *)
Definition open (fs : gmap string file) (path : string) : ifstream :=
  match fs !! path with
  | Some f =>
      if readable f
      then {| rdstate := goodbit; rdbuf := Some (data f) |}
      else {| rdstate := {| badbit := false; eofbit := false;
                            failbit := true |};
              rdbuf := None |}
  | None =>
      {| rdstate := {| badbit := false; eofbit := false; failbit := true |};
         rdbuf := None |}
  end.

(** [fh.good()]: no state bit is set. *)
Definition good (fh : ifstream) : bool :=
  negb (badbit (rdstate fh) || eofbit (rdstate fh) || failbit (rdstate fh)).

(** The path names an entry of the file system. *)
Definition exists_at (fs : gmap string file) (path : string) : bool :=
  bool_decide (is_Some (fs !! path)).

(** The path names an entry of the file system that the process may open
    for reading. *)
Definition readable_at (fs : gmap string file) (path : string) : bool :=
  match fs !! path with
  | Some f => readable f
  | None => false
  end.

End Fs.

(* ===================================================================== *)
(** ** googletest: non-fatal assertions and the verdict of a test         *)
(* ===================================================================== *)

Module GTest.

(** What an assertion macro was asked to check. *)
Inductive assertion : Type :=
| ExpectTrue (condition : bool)
| ExpectFalse (condition : bool)
| Failure.

Definition holds (a : assertion) : bool :=
  match a with
  | ExpectTrue c => c
  | ExpectFalse c => negb c
  | Failure => false
  end.

(** One executed assertion, tagged with the place it stands at. *)
Record check : Type := Check { line : nat; what : assertion }.

(** A test body reads the file system and appends to the record of the
    assertions it has executed; [EXPECT_*] never aborts the body. *)
Definition Test (A : Type) : Type :=
  gmap string Fs.file -> list check -> A * list check.

#[global] Instance Test_ret : MRet Test :=
  fun A (a : A) _ log => (a, log).

#[global] Instance Test_bind : MBind Test :=
  fun A B (k : A -> Test B) (m : Test A) fs log =>
    let '(a, log') := m fs log in k a fs log'.

Definition record (l : nat) (a : assertion) : Test unit :=
  fun _ log => (tt, log ++ [Check l a]).

Definition EXPECT_TRUE (l : nat) (condition : bool) : Test unit :=
  record l (ExpectTrue condition).

Definition EXPECT_FALSE (l : nat) (condition : bool) : Test unit :=
  record l (ExpectFalse condition).

(** [EXPECT_EQ(val1, val2)] on [int] expressions: the assertion holds when
    both operands have a value and the values are equal. *)
Definition EXPECT_EQ (l : nat) (val1 val2 : option Z) : Test unit :=
  record l (ExpectTrue (bool_decide (val1 = val2))).

(** [std::ifstream fh(path);] inside a test body. *)
Definition ifstream (path : string) : Test Fs.ifstream :=
  fun fs log => (Fs.open fs path, log).

Inductive TestResult : Type := Passed | Failed.

(** The assertions a body executes when started on file system [fs]. *)
Definition run (t : Test unit) (fs : gmap string Fs.file) : list check :=
  snd (t fs []).

(** A test passes when none of its assertions failed. *)
Definition verdict (log : list check) : TestResult :=
  if forallb (fun c => holds (what c)) log then Passed else Failed.

Definition outcome (t : Test unit) (fs : gmap string Fs.file) : TestResult :=
  verdict (run t fs).

End GTest.

(* ===================================================================== *)
(** ** test_gcc_tester.cpp                                                *)
(* ===================================================================== *)

Module TestGccTester.
Import GccTester GTest.

(** [const char *marker = "/tmp/gcc_tester_fail_marker";] *)
Definition marker : string := "/tmp/gcc_tester_fail_marker".

(** [TEST(GccTesterBasic, AddWorks)]. The body stands outside the
    [#ifdef FAIL_TEST] region and opens no file. *)
Definition AddWorks : Test unit :=
  EXPECT_EQ 9 (add 1 2) (Some 3) ;;
  EXPECT_EQ 10 (add (-5) 5) (Some 0).

(** [TEST(GccTesterBasic, IsEvenWorks)]. The argument [FAIL_TEST] says
    whether the macro of that name is defined when the file is compiled:
    the preprocessor keeps one of the two regions and drops the other.
    Assertions are tagged with their line in the source file. *)
Definition IsEvenWorks (FAIL_TEST : bool) : Test unit :=
  EXPECT_TRUE 15 (is_even 2) ;;
  if FAIL_TEST then
    EXPECT_TRUE 19 false
  else
    fh ← ifstream marker;
    if Fs.good fh then
      EXPECT_TRUE 25 (is_even 3)
    else
      EXPECT_FALSE 27 (is_even 3).

End TestGccTester.

(* ===================================================================== *)
(** ** The oracle as the specification describes it                       *)
(* ===================================================================== *)

Module Reference.
Import GccTester GTest.

(** Step 2 of the specification's algorithm. *)
Definition override (flag marker_exists : bool) : bool :=
  flag || marker_exists.

(** Steps 1 to 5 of the specification's algorithm, in its order: the
    parity of 3 is computed first, the signals are consulted afterwards.
    Assertions are tagged with the number of their step. *)
Definition oracle (flag marker_exists : bool) : Test unit :=
  let result := is_even 3 in
  let _ := override flag marker_exists in
  if flag then
    record 3 Failure
  else if marker_exists then
    record 4 (ExpectTrue (Bool.eqb result true))
  else
    record 5 (ExpectTrue (Bool.eqb result false)).

End Reference.

(* ===================================================================== *)
(** ** Sample file systems                                                *)
(* ===================================================================== *)

Module Samples.
Import Fs TestGccTester.

Definition no_marker : gmap string file := ∅.

Definition empty_marker : gmap string file :=
  {[ marker := {| data := []; readable := true |} ]}.

Definition text_marker : gmap string file :=
  {[ marker := {| data := [Byte.x66; Byte.x61; Byte.x69; Byte.x6c];
                  readable := true |} ]}.

Definition locked_marker : gmap string file :=
  {[ marker := {| data := []; readable := false |} ]}.

End Samples.

Import CInt GccTester Fs GTest TestGccTester.

Example run_no_marker_demo :
  run (IsEvenWorks false) Samples.no_marker
  = [Check 15 (ExpectTrue true); Check 27 (ExpectFalse false)].
Proof. vm_compute. reflexivity. Qed.

(* ===================================================================== *)
(** ** Facts about [int] and [%]                                          *)
(* ===================================================================== *)

Section Remainder.

(** The truncating remainder by two is [0] on even numbers and has the
    sign of the dividend on odd ones. *)
Lemma c_rem_2_cases (v : Z) :
  c_rem v 2 = if Z.even v then 0 else Z.sgn v.
Proof. unfold c_rem. apply Zquot.Zrem_even. Qed.

Lemma sgn_nonzero_of_odd (v : Z) : Z.even v = false -> Z.sgn v <> 0.
Proof.
  intros Hv Hs. destruct v; simpl in *; discriminate.
Qed.

(** Comparing the remainder with zero forgets its sign: [is_even] is the
    parity test of the integers. *)
Lemma is_even_even (v : Z) : is_even v = Z.even v.
Proof.
  unfold is_even. rewrite c_rem_2_cases.
  destruct (Z.even v) eqn:Hv; [reflexivity|].
  apply Z.eqb_neq. now apply sgn_nonzero_of_odd.
Qed.

Lemma in_range_spec (z : Z) :
  in_range z = true <-> INT_MIN <= z <= INT_MAX.
Proof.
  unfold in_range. rewrite andb_true_iff, !Z.leb_le. reflexivity.
Qed.

Lemma wrap_in_range (z : Z) : in_range (wrap z) = true.
Proof.
  apply in_range_spec. unfold wrap.
  pose proof (Z.mod_pos_bound (z - INT_MIN) (2 ^ INT_BITS)) as Hb.
  unfold INT_MIN, INT_MAX, INT_BITS in *. simpl in *. lia.
Qed.

Lemma wrap_id (z : Z) : in_range z = true -> wrap z = z.
Proof.
  rewrite in_range_spec. unfold wrap, INT_MIN, INT_MAX, INT_BITS.
  simpl. intros Hz. rewrite Z.mod_small; lia.
Qed.

(** Reducing into [int] drops a multiple of [2 ^ 32], hence keeps the
    parity. *)
Lemma is_even_wrap (z : Z) : is_even (wrap z) = is_even z.
Proof.
  rewrite !is_even_even. unfold wrap.
  change (2 ^ INT_BITS) with 4294967296.
  change INT_MIN with (-2147483648).
  pose proof (Z.div_mod (z + 2147483648) 4294967296) as Hdm.
  replace (z - -2147483648) with (z + 2147483648) by lia.
  set (q := (z + 2147483648) / 4294967296) in *.
  replace ((z + 2147483648) mod 4294967296 + -2147483648)
    with (z + 2 * (- (2147483648 * q))) by lia.
  apply Z.even_add_mul_2.
Qed.

End Remainder.

(* ===================================================================== *)
(** ** The calculator                                                     *)
(* ===================================================================== *)

Example add_1_2 : add 1 2 = Some 3.
Proof. reflexivity. Qed.

Example add_m5_5 : add (-5) 5 = Some 0.
Proof. reflexivity. Qed.

Example add_overflows : add INT_MAX 1 = None.
Proof. reflexivity. Qed.

Example is_even_2 : is_even 2 = true.
Proof. reflexivity. Qed.

Example is_even_3 : is_even 3 = false.
Proof. reflexivity. Qed.

Example is_even_m3 : c_rem (-3) 2 = -1 /\ is_even (-3) = false.
Proof. split; reflexivity. Qed.

(** C1. For every integer [v], [is_even v] is true exactly when two divides
    [v]; in particular it is true for [0] and for every even integer
    [2 * k], whatever the sign of [k]. *)
Theorem is_even_iff_divisible :
  (forall v : Z, is_even v = true <-> (2 | v)) /\
  is_even 0 = true /\
  (forall k : Z, is_even (2 * k) = true).
Proof.
  assert (Hiff : forall v : Z, is_even v = true <-> (2 | v)).
  { intros v. unfold is_even, c_rem. rewrite Z.eqb_eq.
    apply Z.rem_divide. discriminate. }
  split; [exact Hiff|]. split; [reflexivity|].
  intros k. apply Hiff. exists k. lia.
Qed.

(** C2. For all [int] values [a] and [b] whose sum lies between [INT_MIN]
    and [INT_MAX], [add a b] returns the arithmetic sum [a + b]. *)
Theorem add_is_sum (a b : Z) :
  INT_MIN <= a <= INT_MAX ->
  INT_MIN <= b <= INT_MAX ->
  INT_MIN <= a + b <= INT_MAX ->
  add a b = Some (a + b).
Proof.
  intros _ _ Hsum. unfold add, signed.
  apply in_range_spec in Hsum. rewrite Hsum. reflexivity.
Qed.

Lemma add_is_sum_witness :
  add 2147483000 (-2147483648) = Some (2147483000 + -2147483648).
Proof.
  apply (add_is_sum 2147483000 (-2147483648));
    unfold INT_MIN, INT_MAX, INT_BITS; simpl; lia.
Defined.

(** When the sum fits, the two's-complement result is the same number. *)
Lemma add_agrees_with_wrap (a b : Z) :
  INT_MIN <= a + b <= INT_MAX -> add a b = Some (wrap (a + b)).
Proof.
  intros Hsum. apply in_range_spec in Hsum.
  unfold add, signed. rewrite Hsum, wrap_id by exact Hsum. reflexivity.
Qed.

(** C6. For every integer [v], [is_even v] and [is_even (- v)] are the same
    boolean. *)
Theorem is_even_opp (v : Z) : is_even v = is_even (- v).
Proof.
  unfold is_even, c_rem. rewrite Z.rem_opp_l by discriminate.
  destruct (Z.eqb_spec (Z.rem v 2) 0) as [H0|Hn].
  - rewrite H0. reflexivity.
  - symmetry. apply Z.eqb_neq. lia.
Qed.

(** The same at the one [int] whose negation does not fit, [INT_MIN], when
    the negation is reduced into [int]. *)
Lemma is_even_opp_wrapped (v : Z) : is_even v = is_even (wrap (- v)).
Proof. rewrite is_even_wrap. rewrite !is_even_even. symmetry. apply Z.even_opp. Qed.

(** C7. For every integer [v], [is_even v] differs from [is_even (v + 1)]. *)
Theorem is_even_succ_differs (v : Z) : is_even v <> is_even (v + 1).
Proof.
  rewrite !is_even_even, Z.add_1_r, Z.even_succ, <- Z.negb_even.
  destruct (Z.even v); discriminate.
Qed.

(** The same at [INT_MAX], when the successor is reduced into [int]. *)
Lemma is_even_succ_wrapped (v : Z) : is_even v <> is_even (wrap (v + 1)).
Proof.
  rewrite is_even_wrap, !is_even_even, Z.add_1_r, Z.even_succ, <- Z.negb_even.
  destruct (Z.even v); discriminate.
Qed.

(** C9. For every negative [int] [v], [is_even v] is the mathematical
    parity of [v]: it is true when [v] is even and false when [v] is odd,
    although in the odd case [v % 2] is [-1] and not [1]; only the
    comparison with [0] matters. *)
Theorem is_even_negative (v : Z) :
  INT_MIN <= v < 0 ->
  is_even v = Z.even v /\
  (Z.Even v -> c_rem v 2 = 0 /\ is_even v = true) /\
  (Z.Odd v -> c_rem v 2 = -1 /\ c_rem v 2 <> 1 /\ is_even v = false).
Proof.
  intros [_ Hneg].
  split; [apply is_even_even|]. split.
  - intros Hev. apply Z.even_spec in Hev.
    rewrite is_even_even, c_rem_2_cases, Hev. split; reflexivity.
  - intros Hodd. apply Z.odd_spec in Hodd.
    rewrite is_even_even, c_rem_2_cases, <- Z.negb_odd, Hodd. simpl.
    rewrite (Z.sgn_neg v) by exact Hneg.
    repeat split; discriminate || reflexivity.
Qed.

Lemma is_even_negative_witness :
  is_even (-7) = Z.even (-7) /\
  (Z.Even (-7) -> c_rem (-7) 2 = 0 /\ is_even (-7) = true) /\
  (Z.Odd (-7) -> c_rem (-7) 2 = -1 /\ c_rem (-7) 2 <> 1 /\ is_even (-7) = false).
Proof.
  apply (is_even_negative (-7)).
  unfold INT_MIN, INT_BITS; simpl; lia.
Defined.

(* ===================================================================== *)
(** ** Opening the marker                                                 *)
(* ===================================================================== *)

Section OpenMarker.
Implicit Types (fs : gmap string file) (path : string).

(** A stream is good after construction exactly when the path names a file
    the process may read. *)
Lemma good_open_iff fs path :
  good (open fs path) = true <->
  exists f, fs !! path = Some f /\ readable f = true.
Proof.
  unfold open. destruct (fs !! path) as [f|] eqn:Hlk.
  - destruct (readable f) eqn:Hr; simpl; split.
    + intros _. exists f. split; [reflexivity | exact Hr].
    + reflexivity.
    + discriminate.
    + intros (g & Hg & Hrg). injection Hg as <-. congruence.
  - simpl. split; [discriminate|]. intros (g & Hg & _). discriminate.
Qed.

Lemma good_open_absent fs path :
  fs !! path = None -> good (open fs path) = false.
Proof. intros Hlk. unfold open. rewrite Hlk. reflexivity. Qed.

(** The bytes of a file play no part in whether it opens. *)
Lemma good_open_ignores_data fs path (f : file) (bytes : list Byte.byte) :
  fs !! path = Some f ->
  good (open (<[path := {| data := bytes; readable := readable f |}]> fs)
             path)
  = good (open fs path).
Proof.
  intros Hlk. unfold open. rewrite lookup_insert_eq, Hlk. simpl.
  destruct (readable f); reflexivity.
Qed.

(** Both values of the signal occur. *)
Lemma good_open_realisable (m : bool) :
  exists fs, good (open fs marker) = m.
Proof.
  destruct m.
  - exists Samples.empty_marker. reflexivity.
  - exists Samples.no_marker. reflexivity.
Qed.

(** The run of the test is a function of [FAIL_TEST] and [fh.good()]. *)
Lemma run_IsEvenWorks (FAIL_TEST : bool) fs :
  run (IsEvenWorks FAIL_TEST) fs =
  Check 15 (ExpectTrue (is_even 2)) ::
  (if FAIL_TEST then [Check 19 (ExpectTrue false)]
   else if good (open fs marker)
        then [Check 25 (ExpectTrue (is_even 3))]
        else [Check 27 (ExpectFalse (is_even 3))]).
Proof.
  unfold run, IsEvenWorks, mbind, Test_bind, EXPECT_TRUE, EXPECT_FALSE,
    record, ifstream.
  destruct FAIL_TEST; simpl; [reflexivity|].
  destruct (good (open fs marker)); reflexivity.
Qed.

End OpenMarker.

(* ===================================================================== *)
(** ** The marker-controlled test                                         *)
(* ===================================================================== *)

Example IsEvenWorks_plain :
  outcome (IsEvenWorks false) Samples.no_marker = Passed.
Proof. reflexivity. Qed.

Example IsEvenWorks_marked :
  outcome (IsEvenWorks false) Samples.text_marker = Failed.
Proof. vm_compute. reflexivity. Qed.

(** C3, as the code has it. Whenever the marker can be opened for reading
    (the stream constructed on it is [good]) and [FAIL_TEST] is not defined,
    the test executes the assertion of line 25, which expects
    [is_even 3] to be true; that assertion does not hold and the test
    fails. *)
Theorem marker_readable_fails (fs : gmap string file) :
  good (open fs marker) = true ->
  run (IsEvenWorks false) fs
  = [Check 15 (ExpectTrue true); Check 25 (ExpectTrue (is_even 3))] /\
  holds (ExpectTrue (is_even 3)) = false /\
  outcome (IsEvenWorks false) fs = Failed.
Proof.
  intros Hgood. unfold outcome. rewrite run_IsEvenWorks, Hgood.
  split; [reflexivity|]. split; reflexivity.
Qed.

Lemma marker_readable_fails_witness :
  run (IsEvenWorks false) Samples.text_marker
  = [Check 15 (ExpectTrue true); Check 25 (ExpectTrue (is_even 3))] /\
  holds (ExpectTrue (is_even 3)) = false /\
  outcome (IsEvenWorks false) Samples.text_marker = Failed.
Proof.
  apply (marker_readable_fails Samples.text_marker).
  vm_compute. reflexivity.
Defined.

(** C3, as the specification words it, does not hold: a marker that exists
    but cannot be opened for reading leaves the stream in the failed state,
    the test takes the branch of line 27 and passes. *)
Lemma marker_exists_but_test_passes :
  exists_at Samples.locked_marker marker = true /\
  run (IsEvenWorks false) Samples.locked_marker
  = [Check 15 (ExpectTrue true); Check 27 (ExpectFalse false)] /\
  outcome (IsEvenWorks false) Samples.locked_marker = Passed /\
  ~ (forall fs : gmap string file,
        exists_at fs marker = true ->
        outcome (IsEvenWorks false) fs = Failed).
Proof.
  assert (He : exists_at Samples.locked_marker marker = true)
    by (vm_compute; reflexivity).
  assert (Hp : outcome (IsEvenWorks false) Samples.locked_marker = Passed)
    by (vm_compute; reflexivity).
  split; [exact He|]. split; [vm_compute; reflexivity|].
  split; [exact Hp|].
  intros Hall. specialize (Hall _ He). rewrite Hp in Hall. discriminate.
Qed.

(** C4. Whenever [FAIL_TEST] is defined the test fails, whatever the file
    system holds: the assertion of line 19 is executed and cannot hold, and
    the marker is not even looked at. *)
Theorem fail_test_always_fails (fs : gmap string file) :
  run (IsEvenWorks true) fs
  = [Check 15 (ExpectTrue true); Check 19 (ExpectTrue false)] /\
  outcome (IsEvenWorks true) fs = Failed.
Proof.
  unfold outcome. rewrite run_IsEvenWorks. split; reflexivity.
Qed.

(** C5. Whenever [FAIL_TEST] is not defined and the marker does not exist,
    every assertion the test executes holds, among them the one of line 27
    that expects [is_even 3] to be false, and the test passes. *)
Theorem no_flag_no_marker_passes (fs : gmap string file) :
  exists_at fs marker = false ->
  (forall c : check,
      c ∈ run (IsEvenWorks false) fs -> holds (what c) = true) /\
  Check 27 (ExpectFalse (is_even 3)) ∈ run (IsEvenWorks false) fs /\
  outcome (IsEvenWorks false) fs = Passed.
Proof.
  intros Habs. unfold exists_at in Habs.
  apply bool_decide_eq_false in Habs.
  assert (Hlk : fs !! marker = None).
  { destruct (fs !! marker) eqn:E; [|reflexivity].
    exfalso. apply Habs. eexists. reflexivity. }
  unfold outcome. rewrite run_IsEvenWorks, (good_open_absent _ _ Hlk).
  split; [|split].
  - intros c Hc. apply elem_of_cons in Hc as [->|Hc]; [reflexivity|].
    apply list_elem_of_singleton in Hc as ->. reflexivity.
  - apply elem_of_cons. right. apply list_elem_of_singleton. reflexivity.
  - reflexivity.
Qed.

Lemma no_flag_no_marker_passes_witness :
  (forall c : check,
      c ∈ run (IsEvenWorks false) Samples.no_marker ->
      holds (what c) = true) /\
  Check 27 (ExpectFalse (is_even 3))
    ∈ run (IsEvenWorks false) Samples.no_marker /\
  outcome (IsEvenWorks false) Samples.no_marker = Passed.
Proof.
  apply (no_flag_no_marker_passes Samples.no_marker).
  vm_compute. reflexivity.
Defined.

(** The stream is good exactly when the file system holds a readable file
    at the path. *)
Lemma good_open_readable_at (fs : gmap string file) (path : string) :
  good (open fs path) = readable_at fs path.
Proof.
  unfold open, readable_at. destruct (fs !! path) as [f|]; [|reflexivity].
  destruct (readable f); reflexivity.
Qed.

(** Both values of the readability signal occur. *)
Lemma readable_at_realisable (m : bool) :
  exists fs : gmap string file, readable_at fs marker = m.
Proof.
  destruct m.
  - exists Samples.text_marker. reflexivity.
  - exists Samples.locked_marker. reflexivity.
Qed.

(** C8, as the code has it. For every value of the compile-time flag and
    of the signal "the marker can be opened for reading", the test and the
    specification's algorithm run on that signal reach the same verdict,
    although the algorithm computes the parity of 3 first and branches
    afterwards while the test branches first. The signal is read off the
    file system: a readable file stands at the marker path. *)
Theorem oracle_refines_reference_on_readability
    (flag m : bool) (fs : gmap string file) :
  readable_at fs marker = m ->
  outcome (IsEvenWorks flag) fs = outcome (Reference.oracle flag m) fs.
Proof.
  intros Hm. unfold outcome at 1.
  rewrite run_IsEvenWorks, good_open_readable_at, Hm.
  destruct flag, m; reflexivity.
Qed.

Lemma oracle_refines_reference_on_readability_witness :
  outcome (IsEvenWorks false) Samples.locked_marker
  = outcome (Reference.oracle false false) Samples.locked_marker.
Proof.
  apply (oracle_refines_reference_on_readability
           false false Samples.locked_marker).
  vm_compute. reflexivity.
Defined.

(** C8, as the specification words it, does not hold: run on the existence
    of the marker, the specification's algorithm fails at a marker that
    exists but cannot be opened for reading, where the test passes. *)
Lemma reference_on_existence_differs :
  exists_at Samples.locked_marker marker = true /\
  outcome (IsEvenWorks false) Samples.locked_marker = Passed /\
  outcome (Reference.oracle false
             (exists_at Samples.locked_marker marker))
          Samples.locked_marker = Failed /\
  ~ (forall (flag : bool) (fs : gmap string file),
        outcome (IsEvenWorks flag) fs
        = outcome (Reference.oracle flag (exists_at fs marker)) fs).
Proof.
  split; [vm_compute; reflexivity|].
  split; [vm_compute; reflexivity|].
  split; [vm_compute; reflexivity|].
  intros Hall. specialize (Hall false Samples.locked_marker).
  vm_compute in Hall. discriminate Hall.
Qed.

(** The last step of the specification's algorithm is reached exactly when
    [override] is false. *)
Lemma reference_step_5_iff (flag m : bool) (fs : gmap string file) :
  Reference.override flag m = false <->
  run (Reference.oracle flag m) fs
  = [Check 5 (ExpectTrue (Bool.eqb (is_even 3) false))].
Proof. destruct flag, m; simpl; split; (reflexivity || discriminate). Qed.

(** C10. Two runs of the test that agree on whether [FAIL_TEST] is defined
    and on whether the marker opens for reading execute the same assertions
    and reach the same verdict; nothing else of the file system, the bytes
    of the marker included, has any influence. *)
Theorem outcome_depends_on_signals_only
    (flag1 flag2 : bool) (fs1 fs2 : gmap string file) :
  flag1 = flag2 ->
  good (open fs1 marker) = good (open fs2 marker) ->
  run (IsEvenWorks flag1) fs1 = run (IsEvenWorks flag2) fs2 /\
  outcome (IsEvenWorks flag1) fs1 = outcome (IsEvenWorks flag2) fs2.
Proof.
  intros <- Hsame.
  assert (Hrun : run (IsEvenWorks flag1) fs1 = run (IsEvenWorks flag1) fs2)
    by (rewrite !run_IsEvenWorks, Hsame; reflexivity).
  split; [exact Hrun|]. unfold outcome. rewrite Hrun. reflexivity.
Qed.

Lemma outcome_depends_on_signals_only_witness :
  run (IsEvenWorks false) Samples.empty_marker
  = run (IsEvenWorks false) Samples.text_marker /\
  outcome (IsEvenWorks false) Samples.empty_marker
  = outcome (IsEvenWorks false) Samples.text_marker.
Proof.
  apply (outcome_depends_on_signals_only false false
           Samples.empty_marker Samples.text_marker).
  - reflexivity.
  - vm_compute. reflexivity.
Defined.

(** Rewriting the bytes of the marker never changes the verdict. *)
Lemma outcome_ignores_marker_data
    (flag : bool) (fs : gmap string file) (f : file)
    (bytes : list Byte.byte) :
  fs !! marker = Some f ->
  outcome (IsEvenWorks flag)
          (<[marker := {| data := bytes; readable := readable f |}]> fs)
  = outcome (IsEvenWorks flag) fs.
Proof.
  intros Hlk. unfold outcome. rewrite !run_IsEvenWorks.
  rewrite (good_open_ignores_data _ _ _ _ Hlk). reflexivity.
Qed.


(* ===================================================================== *)
(** ** Further properties of [add]                                        *)
(* ===================================================================== *)

Section AddLaws.
Implicit Types (a b c s x y : Z).

Lemma add_Some_inv a b s :
  add a b = Some s -> s = a + b /\ INT_MIN <= s <= INT_MAX.
Proof.
  unfold add, signed. destruct (in_range (a + b)) eqn:Hr; [|discriminate].
  intros [= <-]. split; [reflexivity|]. now apply in_range_spec.
Qed.

Lemma add_None_iff a b :
  add a b = None <-> a + b < INT_MIN \/ INT_MAX < a + b.
Proof.
  unfold add, signed. destruct (in_range (a + b)) eqn:Hr.
  - apply in_range_spec in Hr. split; [discriminate | lia].
  - split; [intros _ | reflexivity].
    destruct (Z_lt_dec (a + b) INT_MIN) as [Hlo|Hlo]; [now left|].
    destruct (Z_lt_dec INT_MAX (a + b)) as [Hhi|Hhi]; [now right|].
    assert (Hin : in_range (a + b) = true) by (apply in_range_spec; lia).
    congruence.
Qed.

End AddLaws.

Example add_not_associative_at_the_bound :
  add INT_MAX 1 = None /\
  add 1 (-1) = Some 0 /\ add INT_MAX 0 = Some INT_MAX.
Proof. repeat split. Qed.

(** X1. [add] is commutative, also where the sum does not fit: [add a b]
    and [add b a] are both the same value or both undefined. *)
Theorem add_commutative (a b : Z) : add a b = add b a.
Proof. unfold add. rewrite Z.add_comm. reflexivity. Qed.

(** X2. Zero is neutral on either side: for every [int] [a], [add a 0] and
    [add 0 a] return [a]. *)
Theorem add_zero (a : Z) :
  INT_MIN <= a <= INT_MAX ->
  add a 0 = Some a /\ add 0 a = Some a.
Proof.
  intros Ha. apply in_range_spec in Ha. unfold add, signed.
  rewrite Z.add_0_r, Z.add_0_l, Ha. split; reflexivity.
Qed.

Lemma add_zero_witness :
  add (-2147483648) 0 = Some (-2147483648) /\
  add 0 (-2147483648) = Some (-2147483648).
Proof.
  apply (add_zero (-2147483648)).
  unfold INT_MIN, INT_MAX, INT_BITS; simpl; lia.
Defined.

(** X3. For [int] operands, [add a b] is undefined exactly when the usual
    test made before a signed addition reports an overflow: [b] is positive
    and [a] exceeds [INT_MAX - b], or [b] is negative and [a] is below
    [INT_MIN - b]. Both differences are themselves [int] values. *)
Theorem add_undefined_iff_precheck (a b : Z) :
  INT_MIN <= a <= INT_MAX ->
  INT_MIN <= b <= INT_MAX ->
  (add a b = None <->
   (0 < b /\ INT_MAX - b < a) \/ (b < 0 /\ a < INT_MIN - b)) /\
  (0 < b -> INT_MIN <= INT_MAX - b <= INT_MAX) /\
  (b < 0 -> INT_MIN <= INT_MIN - b <= INT_MAX).
Proof.
  intros Ha Hb. rewrite add_None_iff.
  unfold INT_MIN, INT_MAX, INT_BITS in *. simpl in *.
  repeat split; lia.
Qed.

Lemma add_undefined_iff_precheck_witness :
  (add 2147483647 1 = None <->
   (0 < 1 /\ INT_MAX - 1 < 2147483647) \/
   (1 < 0 /\ 2147483647 < INT_MIN - 1)) /\
  (0 < 1 -> INT_MIN <= INT_MAX - 1 <= INT_MAX) /\
  (1 < 0 -> INT_MIN <= INT_MIN - 1 <= INT_MAX).
Proof.
  apply (add_undefined_iff_precheck 2147483647 1);
    unfold INT_MIN, INT_MAX, INT_BITS; simpl; lia.
Defined.

(** X4. Operands of opposite sign never overflow: when [a] is an [int] that
    is not positive and [b] an [int] that is not negative, [add a b] and
    [add b a] return the sum. *)
Theorem add_opposite_signs (a b : Z) :
  INT_MIN <= a <= 0 ->
  0 <= b <= INT_MAX ->
  add a b = Some (a + b) /\ add b a = Some (b + a).
Proof.
  intros Ha Hb.
  assert (Hr : in_range (a + b) = true).
  { apply in_range_spec.
    unfold INT_MIN, INT_MAX, INT_BITS in *. simpl in *. lia. }
  unfold add, signed. rewrite (Z.add_comm b a), Hr. split; reflexivity.
Qed.

Lemma add_opposite_signs_witness :
  add (-2147483648) 2147483647 = Some (-2147483648 + 2147483647) /\
  add 2147483647 (-2147483648) = Some (2147483647 + -2147483648).
Proof.
  apply (add_opposite_signs (-2147483648) 2147483647);
    unfold INT_MIN, INT_MAX, INT_BITS; simpl; lia.
Defined.

(** X5. Regrouping: when [a + b] and [b + c] are both defined, adding [c]
    to the first and adding the second to [a] give the same result, and
    one is undefined exactly when the other is. *)
Theorem add_assoc_when_defined (a b c x y : Z) :
  add a b = Some x ->
  add b c = Some y ->
  add x c = add a y.
Proof.
  intros Hx Hy.
  apply add_Some_inv in Hx as [-> _]. apply add_Some_inv in Hy as [-> _].
  unfold add. rewrite Z.add_assoc. reflexivity.
Qed.

Lemma add_assoc_when_defined_witness : add 3 (-7) = add 10 (-14).
Proof.
  apply (add_assoc_when_defined 10 (-7) (-7) 3 (-14)); reflexivity.
Defined.

(** X6. Cancellation: if adding [b] to [a] and adding [c] to [a] return the
    same value, then [b] and [c] are equal. *)
Theorem add_left_cancel (a b c s : Z) :
  add a b = Some s ->
  add a c = Some s ->
  b = c.
Proof.
  intros Hb Hc.
  apply add_Some_inv in Hb as [Hb _]. apply add_Some_inv in Hc as [Hc _].
  lia.
Qed.

Lemma add_left_cancel_witness :
  add 2147483647 (-7) = Some 2147483640 /\ -7 = 2147483640 - 2147483647.
Proof.
  split; [reflexivity|].
  apply (add_left_cancel 2147483647 (-7) (2147483640 - 2147483647) 2147483640);
    reflexivity.
Defined.

(* ===================================================================== *)
(** ** [is_even] and the other operations                                 *)
(* ===================================================================== *)

(** X7. Parity of a sum: whenever [add a b] returns [s], [s] is even
    exactly when [a] and [b] have the same parity. *)
Theorem is_even_add (a b s : Z) :
  add a b = Some s ->
  is_even s = Bool.eqb (is_even a) (is_even b).
Proof.
  intros Hs. apply add_Some_inv in Hs as [-> _].
  rewrite !is_even_even, Z.even_add.
  destruct (Z.even a), (Z.even b); reflexivity.
Qed.

Lemma is_even_add_witness :
  is_even (-8) = Bool.eqb (is_even (-5)) (is_even (-3)).
Proof.
  apply (is_even_add (-5) (-3) (-8)). reflexivity.
Defined.

(** X8. [is_even] agrees, on every integer and in particular on the
    negative ones, with the two sign-independent formulations: the lowest
    bit of the two's-complement representation is clear, and the
    remainder shifted into the non-negative range is zero. *)
Theorem is_even_bitwise (v : Z) :
  is_even v = (Z.land v 1 =? 0) /\
  is_even v = (c_rem (c_rem v 2 + 2) 2 =? 0).
Proof.
  split.
  - rewrite is_even_even.
    change 1 with (Z.ones 1) at 1. rewrite Z.land_ones by lia.
    change (2 ^ 1) with 2. rewrite Zmod_odd, <- Z.negb_even.
    destruct (Z.even v); reflexivity.
  - unfold is_even at 1. rewrite c_rem_2_cases.
    destruct (Z.even v) eqn:Hev; [reflexivity|].
    pose proof (sgn_nonzero_of_odd v Hev) as Hs.
    destruct v; simpl in *; [contradiction | reflexivity | reflexivity].
Qed.

(* ===================================================================== *)
(** ** Further properties of the two test cases                           *)
(* ===================================================================== *)

Section Harness.
Implicit Types (fs : gmap string file) (path : string) (f : file).

Lemma run_AddWorks fs :
  run AddWorks fs
  = [Check 9 (ExpectTrue (bool_decide (add 1 2 = Some 3)));
     Check 10 (ExpectTrue (bool_decide (add (-5) 5 = Some 0)))].
Proof. reflexivity. Qed.

Lemma good_open_insert fs path f :
  good (open (<[path := f]> fs) path) = readable f.
Proof.
  unfold open. rewrite lookup_insert_eq. destruct (readable f); reflexivity.
Qed.

Lemma good_open_delete fs path : good (open (delete path fs) path) = false.
Proof. apply good_open_absent. apply lookup_delete_eq. Qed.

End Harness.

(** X9. [AddWorks] executes its two assertions, both hold, and it passes on
    every file system: neither the marker nor any other file reaches it. *)
Theorem AddWorks_always_passes (fs : gmap string file) :
  run AddWorks fs
  = [Check 9 (ExpectTrue true); Check 10 (ExpectTrue true)] /\
  outcome AddWorks fs = Passed.
Proof. unfold outcome. rewrite run_AddWorks. split; reflexivity. Qed.

(** X10. [IsEvenWorks] passes exactly when [FAIL_TEST] is not defined and
    the marker path holds no file that may be opened for reading. *)
Theorem IsEvenWorks_passes_iff (FAIL_TEST : bool) (fs : gmap string file) :
  outcome (IsEvenWorks FAIL_TEST) fs = Passed <->
  FAIL_TEST = false /\
  ~ (exists f, fs !! marker = Some f /\ readable f = true).
Proof.
  rewrite <- good_open_iff. unfold outcome. rewrite run_IsEvenWorks.
  destruct FAIL_TEST; simpl.
  - split; [discriminate | intros [Hf _]; discriminate Hf].
  - destruct (good (open fs marker)); simpl; split.
    + discriminate.
    + intros [_ Hn]. exfalso. apply Hn. reflexivity.
    + intros _. split; [reflexivity | discriminate].
    + reflexivity.
Qed.

(** X11. Whatever the flag and the file system, [IsEvenWorks] executes
    exactly two assertions; the first is the one of line 15 and holds, the
    second stands at line 19, 25 or 27, and the test fails exactly when
    that second assertion does not hold. *)
Theorem IsEvenWorks_two_assertions
    (FAIL_TEST : bool) (fs : gmap string file) :
  exists c : check,
    run (IsEvenWorks FAIL_TEST) fs = [Check 15 (ExpectTrue true); c] /\
    (line c = 19%nat \/ line c = 25%nat \/ line c = 27%nat) /\
    (outcome (IsEvenWorks FAIL_TEST) fs = Failed <->
     holds (what c) = false).
Proof.
  unfold outcome. rewrite run_IsEvenWorks.
  destruct FAIL_TEST; [|destruct (good (open fs marker))];
    eexists; (split; [reflexivity|]); simpl.
  - split; [now left|]. split; reflexivity.
  - split; [right; now left|]. split; reflexivity.
  - split; [right; now right|]. split; discriminate.
Qed.

(** X13. Switching the verdict without recompiling: with [FAIL_TEST] not
    defined, placing a readable file at the marker path makes
    [IsEvenWorks] fail, whatever else the file system holds and whatever
    the file contains, and removing the marker again makes it pass. *)
Theorem IsEvenWorks_marker_toggle (fs : gmap string file) (f : file) :
  readable f = true ->
  outcome (IsEvenWorks false) (<[marker := f]> fs) = Failed /\
  outcome (IsEvenWorks false) (delete marker (<[marker := f]> fs)) = Passed.
Proof.
  intros Hr. unfold outcome. rewrite !run_IsEvenWorks.
  rewrite good_open_insert, Hr, good_open_delete. split; reflexivity.
Qed.

Lemma IsEvenWorks_marker_toggle_witness :
  outcome (IsEvenWorks false)
          (<[marker := {| data := [Byte.x31]; readable := true |}]>
             Samples.locked_marker) = Failed /\
  outcome (IsEvenWorks false)
          (delete marker
             (<[marker := {| data := [Byte.x31]; readable := true |}]>
                Samples.locked_marker)) = Passed.
Proof.
  apply (IsEvenWorks_marker_toggle Samples.locked_marker
           {| data := [Byte.x31]; readable := true |}).
  reflexivity.
Defined.
